(** * bracketbot-mcp: the robot control adapter of server.py

    A shallow embedding of [src/server.py].  Every tool of the server
    builds one HTTP request for the robot listening on
    [http://localhost:<port>], awaits it, and maps the answer to the tool
    result.  The network is the only effect, so a computation is a
    function of the downstream behaviour and of the log of the requests
    issued so far; it yields a result (a value or a raised exception)
    and the extended log.

    What lies outside server.py is modelled as follows.
    - The robots: an arbitrary function [Net] from the history and the
      request to an outcome, a response or a raised exception.
    - httpx: [client.get]/[client.post] perform exactly the request they
      are given; [raise_for_status] raises [HTTPStatusError] unless the
      status lies in 200..299; [response.json()] decodes the body.
    - The JSON decoder: a parameter [json_loads] of the development.
    - Exceptions are the subclasses of Python's [Exception]; signals
      that are not ([KeyboardInterrupt], task cancellation) are not
      modelled.
    - Python floats are IEEE binary64 numbers, the primitive floats of
      Rocq; server.py never computes with them. *)

From Stdlib Require Import ZArith String List Strings.Byte Lia DecimalString.
From Stdlib Require Import DecimalZ.
From Stdlib Require Import Floats.PrimFloat.
Import ListNotations.
Open Scope string_scope.
Open Scope Z_scope.

Set Implicit Arguments.
Set Warnings "-register-all,-inexact-float".

(** ** Python values *)

(** The values server.py handles: JSON payloads, query parameters and
    the dictionaries it returns.  A [dict] keeps insertion order, as
    Python's does. *)
Inductive Value : Type :=
| VNone
| VBool (b : bool)
| VInt (z : Z)
| VFloat (f : float)
| VStr (s : string)
| VList (xs : list Value)
| VDict (items : list (string * Value)).

Definition dict : Type := list (string * Value).

(** [d[k]], [None] standing for a missing key. *)
Fixpoint dict_get (d : dict) (k : string) : option Value :=
  match d with
  | [] => None
  | (k', v) :: d' => if String.eqb k k' then Some v else dict_get d' k
  end.

(** [d[k] = v]: overwrite in place, or append a new key. *)
Fixpoint dict_set (d : dict) (k : string) (v : Value) : dict :=
  match d with
  | [] => [(k, v)]
  | (k', v') :: d' =>
      if String.eqb k k' then (k', v) :: d' else (k', v') :: dict_set d' k v
  end.

(** [k in d]. *)
Definition dict_mem (d : dict) (k : string) : bool :=
  existsb (String.eqb k) (map fst d).

(** [str(n)] for an [int]: decimal digits, with a sign when negative. *)
Definition str_int (z : Z) : string := NilZero.string_of_int (Z.to_int z).

(** A parameter with a default value in a signature, [x: T = d]. *)
Definition default (A : Type) (d : A) (o : option A) : A :=
  match o with Some x => x | None => d end.

(** ** Exceptions *)

Inductive Exn : Type :=
| TransportError (reason : string)     (* httpx: connection refused, timeout, ... *)
| HTTPStatusError (status_code : Z)    (* httpx: raise_for_status *)
| JSONDecodeError (reason : string)    (* response.json() on a body that is not JSON *)
| TypeError (reason : string)
| KeyError (key : string).

(** [str(e)].  httpx's text for an [HTTPStatusError] is longer and
    depends on its version; no handler of server.py prints one it has
    raised itself, [raise_for_status] being called outside [try] only. *)
Definition str_exn (e : Exn) : string :=
  match e with
  | TransportError reason => reason
  | HTTPStatusError status_code => "HTTP status " ++ str_int status_code
  | JSONDecodeError reason => reason
  | TypeError reason => reason
  | KeyError key => "'" ++ key ++ "'"
  end.

(** ** Requests, responses and the downstream robots *)

Inductive Method : Type := GET | POST.

(** The arguments of one [client.get(url, params=, timeout=)] or
    [client.post(url, json=)]. *)
Record Request : Type := {
  req_method : Method;
  req_url : string;
  req_params : option dict;
  req_json : option dict;
  req_timeout : option float
}.

Record Response : Type := {
  status_code : Z;
  content : list byte
}.

Inductive Outcome : Type :=
| Responded (r : Response)
| Raised (e : Exn).

Definition Log : Type := list Request.

(** The downstream side: what the robots answer to a request, given
    everything that was issued before it. *)
Definition Net : Type := Log -> Request -> Outcome.

(** ** Computations *)

Inductive Result (A : Type) : Type :=
| Returned (a : A)
| Raises (e : Exn).
Arguments Raises {A} e.

Definition M (A : Type) : Type := Net -> Log -> Result A * Log.

Definition ret (A : Type) (a : A) : M A :=
  fun _ log => (Returned a, log).

Definition raise (A : Type) (e : Exn) : M A :=
  fun _ log => (Raises e, log).
Arguments raise {A} e.

Definition bind (A B : Type) (m : M A) (k : A -> M B) : M B :=
  fun net log =>
    match m net log with
    | (Returned a, log') => k a net log'
    | (Raises e, log') => (Raises e, log')
    end.

(** [try: body  except Exception as e: handler e] (and the bare
    [except:]). *)
Definition try_except (A : Type) (body : M A) (handler : Exn -> M A) : M A :=
  fun net log =>
    match body net log with
    | (Returned a, log') => (Returned a, log')
    | (Raises e, log') => handler e net log'
    end.

Declare Scope py_scope.
Delimit Scope py_scope with py.
Notation "x <- m ;; k" := (bind m (fun x => k))
  (at level 61, m at next level, right associativity) : py_scope.
Notation "m ;; k" := (bind m (fun _ => k))
  (at level 61, right associativity) : py_scope.
Open Scope py_scope.

(** One outbound call: the request is logged, the robots decide. *)
Definition send (req : Request) : M Response :=
  fun net log =>
    (match net log req with
     | Responded r => Returned r
     | Raised e => Raises e
     end, (log ++ [req])%list).

(** [await client.get(url, params=params, timeout=timeout)]. *)
Definition client_get (url : string) (params : option dict)
    (timeout : option float) : M Response :=
  send {| req_method := GET; req_url := url; req_params := params;
          req_json := None; req_timeout := timeout |}.

(** [await client.post(url, json=json_data)]. *)
Definition client_post (url : string) (json : option dict) : M Response :=
  send {| req_method := POST; req_url := url; req_params := None;
          req_json := json; req_timeout := None |}.

(** httpx's [Response.is_success]. *)
Definition is_success (status : Z) : bool :=
  (200 <=? status) && (status <=? 299).

(** [response.raise_for_status()]. *)
Definition raise_for_status (response : Response) : M unit :=
  if is_success (status_code response) then ret tt
  else raise (HTTPStatusError (status_code response)).

(** The decoder used by the closed examples at the end of the file: it
    knows the empty object and one robot description. *)
Definition rover_body : list byte :=
  (* the JSON object with the one key name, bound to the string Rover *)
  [x7b; x22; x6e; x61; x6d; x65; x22; x3a; x20;
   x22; x52; x6f; x76; x65; x72; x22; x7d].

Definition bytes_eqb (a b : list byte) : bool :=
  String.eqb (string_of_list_byte a) (string_of_list_byte b).

Definition sample_json_loads (body : list byte) : string + Value :=
  if bytes_eqb body [x7b; x7d] then inr (VDict [])
  else if bytes_eqb body rover_body then inr (VDict [("name", VStr "Rover")])
  else inl "Expecting value: line 1 column 1 (char 0)".

(** Downstream behaviours for the closed examples: a fleet that gives
    every request the same outcome, and one that answers by URL. *)
Definition always (o : Outcome) : Net := fun _ _ => o.

Fixpoint url_lookup (table : list (string * Outcome)) (otherwise : Outcome)
    (url : string) : Outcome :=
  match table with
  | [] => otherwise
  | (u, o) :: table' =>
      if String.eqb u url then o else url_lookup table' otherwise url
  end.

Definition by_url (table : list (string * Outcome)) (otherwise : Outcome)
    : Net :=
  fun _ req => url_lookup table otherwise (req_url req).

Definition refused : Outcome :=
  Raised (TransportError "All connection attempts failed").

(** ** server.py *)

Section Server.

(** [json.loads] on a response body: the decoded value, or the message
    of the [JSONDecodeError]. *)
Variable json_loads : list byte -> string + Value.

(** [response.json()]. *)
Definition response_json (response : Response) : M Value :=
  match json_loads (content response) with
  | inr v => ret v
  | inl reason => raise (JSONDecodeError reason)
  end.

(** ["name" in data]: key membership for a dict, element membership
    for a list, substring test for a string, [TypeError] otherwise. *)
Definition py_contains (data : Value) (k : string) : M bool :=
  match data with
  | VDict items => ret (dict_mem items k)
  | VList xs =>
      ret (existsb (fun x => match x with
                             | VStr s => String.eqb s k
                             | _ => false
                             end) xs)
  | VStr s =>
      ret (match String.index 0 k s with Some _ => true | None => false end)
  | _ => raise (TypeError "argument is not iterable")
  end.

(** [data[k]] for a string key: only a dict can be indexed that way. *)
Definition py_getitem (data : Value) (k : string) : M Value :=
  match data with
  | VDict items =>
      match dict_get items k with
      | Some v => ret v
      | None => raise (KeyError k)
      end
  | VList _ => raise (TypeError "list indices must be integers or slices, not str")
  | VStr _ => raise (TypeError "string indices must be integers, not 'str'")
  | _ => raise (TypeError "object is not subscriptable")
  end.

Definition get_robot_api_url (port : Z) : string :=
  "http://localhost:" ++ str_int port.

Definition drive_forward (port : option Z) (speed duration : option float)
    : M Value :=
  let port := default 8000 port in
  let speed := default 0.2%float speed in
  let robot_api_url := get_robot_api_url port in
  let params := [("speed", VFloat speed)] in
  let params := match duration with
                | Some d => dict_set params "duration" (VFloat d)
                | None => params
                end in
  response <- client_get (robot_api_url ++ "/forward") (Some params) None ;;
  raise_for_status response ;;
  response_json response.

Definition drive_backward (port : option Z) (speed duration : option float)
    : M Value :=
  let port := default 8000 port in
  let speed := default 0.2%float speed in
  let robot_api_url := get_robot_api_url port in
  let params := [("speed", VFloat speed)] in
  let params := match duration with
                | Some d => dict_set params "duration" (VFloat d)
                | None => params
                end in
  response <- client_get (robot_api_url ++ "/backward") (Some params) None ;;
  raise_for_status response ;;
  response_json response.

Definition turn_left (port : option Z) (speed duration : option float)
    : M Value :=
  let port := default 8000 port in
  let speed := default 1.2%float speed in
  let robot_api_url := get_robot_api_url port in
  let params := [("speed", VFloat speed)] in
  let params := match duration with
                | Some d => dict_set params "duration" (VFloat d)
                | None => params
                end in
  response <- client_get (robot_api_url ++ "/left") (Some params) None ;;
  raise_for_status response ;;
  response_json response.

Definition turn_right (port : option Z) (speed duration : option float)
    : M Value :=
  let port := default 8000 port in
  let speed := default 1.2%float speed in
  let robot_api_url := get_robot_api_url port in
  let params := [("speed", VFloat speed)] in
  let params := match duration with
                | Some d => dict_set params "duration" (VFloat d)
                | None => params
                end in
  response <- client_get (robot_api_url ++ "/right") (Some params) None ;;
  raise_for_status response ;;
  response_json response.

Definition stop (port : option Z) : M Value :=
  let port := default 8000 port in
  let robot_api_url := get_robot_api_url port in
  response <- client_get (robot_api_url ++ "/stop") None None ;;
  raise_for_status response ;;
  response_json response.

Definition beep (port : option Z) (frequency duration volume : option float)
    : M Value :=
  let port := default 8000 port in
  let frequency := default 440.0%float frequency in
  let duration := default 1.0%float duration in
  let volume := default 0.5%float volume in
  let robot_api_url := get_robot_api_url port in
  let params := [("frequency", VFloat frequency);
                 ("duration", VFloat duration);
                 ("volume", VFloat volume)] in
  response <- client_get (robot_api_url ++ "/beep") (Some params) None ;;
  raise_for_status response ;;
  response_json response.

Definition drive (port : option Z)
    (linear_velocity angular_velocity duration : option float) : M Value :=
  let port := default 8000 port in
  let linear_velocity := default 0.0%float linear_velocity in
  let angular_velocity := default 0.0%float angular_velocity in
  let robot_api_url := get_robot_api_url port in
  let json_data := [("linear_velocity", VFloat linear_velocity);
                    ("angular_velocity", VFloat angular_velocity)] in
  let json_data := match duration with
                   | Some d => dict_set json_data "duration" (VFloat d)
                   | None => json_data
                   end in
  response <- client_post (robot_api_url ++ "/drive") (Some json_data) ;;
  raise_for_status response ;;
  response_json response.

Definition robot_status (port : option Z) : M Value :=
  let port := default 8000 port in
  let robot_api_url := get_robot_api_url port in
  response <- client_get (robot_api_url ++ "/") None None ;;
  raise_for_status response ;;
  response_json response.

(** FastMCP's [Image(data=..., format=...)]. *)
Record Image : Type := {
  image_data : list byte;
  image_format : string
}.

Definition get_camera_image (port : option Z) (format : option string)
    (quality : option Z) : M Image :=
  let port := default 8000 port in
  let format := default "png" format in
  let quality := default 90 quality in
  let robot_api_url := get_robot_api_url port in
  let params := [("format", VStr format); ("quality", VInt quality)] in
  response <- client_get (robot_api_url ++ "/image") (Some params) None ;;
  raise_for_status response ;;
  let image_data := content response in
  ret {| image_data := image_data; image_format := format |}.

(** One configured robot, [{"port": ..., "name": ...}]: both keys are
    present in every element of the literal list. *)
Record Robot : Type := {
  robot_port : Z;
  robot_name : string
}.

Definition robots : list Robot :=
  [ {| robot_port := 8000; robot_name := "Robot 1" |};
    {| robot_port := 8001; robot_name := "Robot 2" |} ].

(** The [try]/[except] statement of the loop of [list_available_robots]:
    it leaves the entry of [robot] in [robot_info]. *)
Definition poll_robot (robot : Robot) : M dict :=
  try_except
    (let robot_api_url := get_robot_api_url (robot_port robot) in
     response <- client_get (robot_api_url ++ "/") None (Some 1.0%float) ;;
     if status_code response =? 200 then
       info <- response_json response ;;
       ret [("port", VInt (robot_port robot));
            ("name", VStr (robot_name robot));
            ("status", VStr "online");
            ("info", info)]
     else
       ret [("port", VInt (robot_port robot));
            ("name", VStr (robot_name robot));
            ("status", VStr ("error: " ++ str_int (status_code response)))])
    (fun e =>
       ret [("port", VInt (robot_port robot));
            ("name", VStr (robot_name robot));
            ("status", VStr ("offline: " ++ str_exn e))]).

(** [for robot in robots: ...; result.append(robot_info)], then
    [return result]. *)
Fixpoint poll_robots (robots : list Robot) (result : list dict)
    : M (list dict) :=
  match robots with
  | [] => ret result
  | robot :: rest =>
      robot_info <- poll_robot robot ;;
      poll_robots rest (result ++ [robot_info])%list
  end.

Definition list_available_robots : M (list dict) :=
  poll_robots robots [].

Definition capabilities : list Value :=
  [VStr "Movement: forward, backward, left, right";
   VStr "Sound: beep at different frequencies";
   VStr "Control: precise velocity control";
   VStr "Vision: camera image capture"].

Definition api_endpoints : list Value :=
  [VStr "/forward - Move forward";
   VStr "/backward - Move backward";
   VStr "/left - Turn left";
   VStr "/right - Turn right";
   VStr "/stop - Stop movement";
   VStr "/beep - Play sound";
   VStr "/drive - Precise movement control";
   VStr "/image - Get camera image";
   VStr "/image/base64 - Get base64 encoded camera image"].

Definition get_robot_info (port : option Z) : M dict :=
  let port := default 8000 port in
  let robot_name := VStr ("Robot (Port " ++ str_int port ++ ")") in
  robot_name <-
    try_except
      (let robot_api_url := get_robot_api_url port in
       response <- client_get (robot_api_url ++ "/") None None ;;
       if status_code response =? 200 then
         data <- response_json response ;;
         has_name <- py_contains data "name" ;;
         if has_name then py_getitem data "name" else ret robot_name
       else ret robot_name)
      (fun _ => ret robot_name) ;;
  ret [("name", robot_name);
       ("port", VInt port);
       ("capabilities", VList capabilities);
       ("api_endpoints", VList api_endpoints)].

(** The eight tools that relay one action and hand back the robot's JSON
    answer, as a caller names them. *)
Inductive RelayCall : Type :=
| DriveForward (port : option Z) (speed duration : option float)
| DriveBackward (port : option Z) (speed duration : option float)
| TurnLeft (port : option Z) (speed duration : option float)
| TurnRight (port : option Z) (speed duration : option float)
| Stop (port : option Z)
| Beep (port : option Z) (frequency duration volume : option float)
| Drive (port : option Z)
    (linear_velocity angular_velocity duration : option float)
| RobotStatus (port : option Z).

Definition relay_call (c : RelayCall) : M Value :=
  match c with
  | DriveForward p s d => drive_forward p s d
  | DriveBackward p s d => drive_backward p s d
  | TurnLeft p s d => turn_left p s d
  | TurnRight p s d => turn_right p s d
  | Stop p => stop p
  | Beep p f d v => beep p f d v
  | Drive p l a d => drive p l a d
  | RobotStatus p => robot_status p
  end.

(** The identity an entry of the report carries, and the one configured
    for a robot. *)
Definition entry_identity (entry : dict) : option Value * option Value :=
  (dict_get entry "port", dict_get entry "name").

Definition robot_identity (robot : Robot) : option Value * option Value :=
  (Some (VInt (robot_port robot)), Some (VStr (robot_name robot))).

(** ** Dictionaries *)

Lemma dict_mem_get (d : dict) (k : string) :
  dict_mem d k = match dict_get d k with Some _ => true | None => false end.
Proof.
  unfold dict_mem. induction d as [| [k' v] d IH]; [reflexivity |].
  cbn. destruct (String.eqb k k'); [reflexivity | exact IH].
Qed.

(** After [d[k] = v], [d[k]] is [v] and the other keys are untouched. *)
Lemma dict_get_set_same (d : dict) (k : string) (v : Value) :
  dict_get (dict_set d k v) k = Some v.
Proof.
  induction d as [| [k' v'] d IH]; cbn.
  - rewrite String.eqb_refl. reflexivity.
  - destruct (String.eqb k k') eqn:E; cbn; rewrite E; [reflexivity | exact IH].
Qed.

Lemma dict_get_set_other (d : dict) (k k' : string) (v : Value) :
  k <> k' -> dict_get (dict_set d k v) k' = dict_get d k'.
Proof.
  intro Hne. induction d as [| [k0 v0] d IH]; cbn.
  - destruct (String.eqb_spec k' k); [congruence | reflexivity].
  - destruct (String.eqb_spec k k0) as [-> | Hk]; cbn.
    + destruct (String.eqb_spec k' k0); [congruence | reflexivity].
    + destruct (String.eqb k' k0); [reflexivity | exact IH].
Qed.

(** An assignment to a key that is there keeps the keys and their order;
    to a new key, it adds the key at the end. *)
Lemma dict_set_keys (d : dict) (k : string) (v : Value) :
  map fst (dict_set d k v) =
    if dict_mem d k then map fst d else (map fst d ++ [k])%list.
Proof.
  unfold dict_mem. induction d as [| [k0 v0] d IH]; [reflexivity |].
  cbn. destruct (String.eqb k k0); cbn; [reflexivity |].
  rewrite IH. destruct (existsb (String.eqb k) (map fst d)); reflexivity.
Qed.

(** ** Running computations *)

Lemma bind_send (A : Type) (req : Request) (k : Response -> M A)
    (net : Net) (log : Log) :
  bind (send req) k net log =
    match net log req with
    | Responded r => k r net (log ++ [req])%list
    | Raised e => (Raises e, (log ++ [req])%list)
    end.
Proof.
  unfold bind, send. destruct (net log req); reflexivity.
Qed.

(** The three lines that end every relay tool: await the call, raise
    for a status outside 200..299, decode the body. *)
Lemma relay_run (req : Request) (net : Net) (log : Log) :
  (response <- send req ;;
   raise_for_status response ;;
   response_json response) net log =
    (match net log req with
     | Raised e => Raises e
     | Responded r =>
         if is_success (status_code r) then
           match json_loads (content r) with
           | inr v => Returned v
           | inl reason => Raises (JSONDecodeError reason)
           end
         else Raises (HTTPStatusError (status_code r))
     end, (log ++ [req])%list).
Proof.
  rewrite bind_send. destruct (net log req) as [r | e]; [| reflexivity].
  unfold bind, raise_for_status, response_json.
  destruct (is_success (status_code r)); [| reflexivity].
  cbn. destruct (json_loads (content r)); reflexivity.
Qed.

Lemma relay_run_log (req : Request) (net : Net) (log : Log) :
  snd ((response <- send req ;;
        raise_for_status response ;;
        response_json response) net log) = (log ++ [req])%list.
Proof. rewrite relay_run. reflexivity. Qed.

Ltac unfold_tools :=
  cbv beta iota zeta delta
    [relay_call drive_forward drive_backward turn_left turn_right stop beep
     drive robot_status client_get client_post].

(** ** Single-action relays *)

(** C4: every single-action relay call issues one request and hands the
    downstream failure to its caller as a raised exception: a transport
    exception is raised unchanged, a status outside 200..299 raises
    [HTTPStatusError] with that status, a body that is not JSON raises
    [JSONDecodeError]; only a success status with a JSON body returns,
    and returns that body decoded.  Nothing is retried or swallowed. *)
Theorem relay_errors_propagate (c : RelayCall) (net : Net) (log : Log) :
  exists req : Request,
    relay_call c net log =
      (match net log req with
       | Raised e => Raises e
       | Responded r =>
           if is_success (status_code r) then
             match json_loads (content r) with
             | inr v => Returned v
             | inl reason => Raises (JSONDecodeError reason)
             end
           else Raises (HTTPStatusError (status_code r))
       end, (log ++ [req])%list).
Proof.
  destruct c; unfold_tools; eexists; apply relay_run.
Qed.

(** C5: the optional [duration] of the four motion tools and of [drive]
    is a key of the outgoing query (of the JSON body, for [drive]) exactly
    when the caller gives it, and then with the caller's value; when it
    is omitted the dictionary sent has no such key. *)
Theorem optional_duration_omitted (c : RelayCall) (net : Net) (log : Log) :
  exists req : Request,
    snd (relay_call c net log) = (log ++ [req])%list /\
    match c with
    | DriveForward _ _ duration | DriveBackward _ _ duration
    | TurnLeft _ _ duration | TurnRight _ _ duration =>
        exists params : dict,
          req_params req = Some params /\ req_json req = None /\
          match duration with
          | None =>
              map fst params = ["speed"] /\ dict_get params "duration" = None
          | Some d =>
              map fst params = ["speed"; "duration"] /\
              dict_get params "duration" = Some (VFloat d)
          end
    | Drive _ _ _ duration =>
        exists json_data : dict,
          req_json req = Some json_data /\ req_params req = None /\
          match duration with
          | None =>
              map fst json_data = ["linear_velocity"; "angular_velocity"] /\
              dict_get json_data "duration" = None
          | Some d =>
              map fst json_data =
                ["linear_velocity"; "angular_velocity"; "duration"] /\
              dict_get json_data "duration" = Some (VFloat d)
          end
    | Stop _ | Beep _ _ _ _ | RobotStatus _ => True
    end.
Proof.
  destruct c as [p s d | p s d | p s d | p s d | p | p f d v | p l a d | p];
    try destruct d; unfold_tools;
    (eexists; split; [apply relay_run_log |]); cbn; eauto 6.
Qed.

Lemma camera_run (port : option Z) (format : option string)
    (quality : option Z) (net : Net) (log : Log) :
  let req := {| req_method := GET;
                req_url := get_robot_api_url (default 8000 port) ++ "/image";
                req_params :=
                  Some [("format", VStr (default "png" format));
                        ("quality", VInt (default 90 quality))];
                req_json := None; req_timeout := None |} in
  get_camera_image port format quality net log =
    (match net log req with
     | Raised e => Raises e
     | Responded r =>
         if is_success (status_code r) then
           Returned {| image_data := content r;
                       image_format := default "png" format |}
         else Raises (HTTPStatusError (status_code r))
     end, (log ++ [req])%list).
Proof.
  intro req. unfold get_camera_image, client_get. fold req.
  rewrite bind_send. destruct (net log req) as [r | e]; [| reflexivity].
  unfold bind, raise_for_status.
  destruct (is_success (status_code r)); reflexivity.
Qed.

(** C6: [drive_forward] with speed 0.5 and duration 2.0 issues one GET
    for [/forward] with the query speed=0.5, duration=2.0, and when the
    robot answers with a success status and a JSON body it returns that
    body as decoded; every relay tool, the camera included, issues exactly
    one request per invocation. *)
Theorem drive_forward_end_to_end :
  (forall (p : option Z) (net : Net) (log : Log) (req : Request),
     req = {| req_method := GET;
              req_url := "http://localhost:" ++ str_int (default 8000 p)
                         ++ "/forward";
              req_params :=
                Some [("speed", VFloat 0.5); ("duration", VFloat 2.0)];
              req_json := None; req_timeout := None |} ->
     snd (drive_forward p (Some 0.5%float) (Some 2.0%float) net log)
       = (log ++ [req])%list /\
     forall (r : Response) (v : Value),
       net log req = Responded r ->
       is_success (status_code r) = true ->
       json_loads (content r) = inr v ->
       fst (drive_forward p (Some 0.5%float) (Some 2.0%float) net log)
         = Returned v) /\
  (forall (c : RelayCall) (net : Net) (log : Log),
     exists req : Request, snd (relay_call c net log) = (log ++ [req])%list) /\
  (forall (port : option Z) (format : option string) (quality : option Z)
          (net : Net) (log : Log),
     exists req : Request,
       snd (get_camera_image port format quality net log)
         = (log ++ [req])%list).
Proof.
  split; [| split].
  - intros p net log req Hreq.
    assert (E : drive_forward p (Some 0.5%float) (Some 2.0%float) =
                (response <- send req ;;
                 raise_for_status response ;;
                 response_json response)) by (subst req; reflexivity).
    rewrite E, relay_run. split; [reflexivity |].
    intros r v Hnet Hok Hjson. cbn [fst].
    rewrite Hnet, Hok, Hjson. reflexivity.
  - intros c net log. destruct c; unfold_tools; eexists; apply relay_run_log.
  - intros port format quality net log. eexists.
    rewrite camera_run. reflexivity.
Qed.

(** C7: [get_camera_image] asks [/image] once and, on a success status,
    returns an image made of the raw bytes of the response and tagged
    with the requested format: [jpeg] for [jpeg], [png] for [png] and,
    [png] being the default, for an omitted format. *)
Theorem camera_image_tagged (port : option Z) (format : option string)
    (quality : option Z) (net : Net) (log : Log) :
  exists req : Request,
    req_url req
      = "http://localhost:" ++ str_int (default 8000 port) ++ "/image" /\
    get_camera_image port format quality net log =
      (match net log req with
       | Raised e => Raises e
       | Responded r =>
           if is_success (status_code r) then
             Returned {| image_data := content r;
                         image_format := match format with
                                         | Some f => f
                                         | None => "png"
                                         end |}
           else Raises (HTTPStatusError (status_code r))
       end, (log ++ [req])%list).
Proof.
  eexists. split; [| apply camera_run]. reflexivity.
Qed.

(** ** The fleet listing *)

(** What one turn of the loop does, whatever the robot does. *)
Lemma poll_robot_run (robot : Robot) (net : Net) (log : Log) :
  let req := {| req_method := GET;
                req_url := get_robot_api_url (robot_port robot) ++ "/";
                req_params := None; req_json := None;
                req_timeout := Some 1.0%float |} in
  poll_robot robot net log =
    (Returned
       (("port", VInt (robot_port robot)) ::
        ("name", VStr (robot_name robot)) ::
        match net log req with
        | Responded r =>
            if status_code r =? 200 then
              match json_loads (content r) with
              | inr info => [("status", VStr "online"); ("info", info)]
              | inl reason => [("status", VStr ("offline: " ++ reason))]
              end
            else [("status", VStr ("error: " ++ str_int (status_code r)))]
        | Raised e => [("status", VStr ("offline: " ++ str_exn e))]
        end), (log ++ [req])%list).
Proof.
  intro req. unfold poll_robot, try_except, client_get. fold req.
  rewrite bind_send. destruct (net log req) as [r | e]; [| reflexivity].
  destruct (status_code r =? 200); [| reflexivity].
  unfold bind, response_json.
  destruct (json_loads (content r)); reflexivity.
Qed.

Lemma poll_robot_returns (robot : Robot) (net : Net) (log : Log) :
  exists (entry : dict) (req : Request),
    poll_robot robot net log = (Returned entry, (log ++ [req])%list) /\
    entry_identity entry = robot_identity robot.
Proof.
  do 2 eexists. split; [apply poll_robot_run | reflexivity].
Qed.

(** The loop never raises: it appends one entry per robot, in order, to
    what it was given, and issues one request per robot. *)
Lemma poll_robots_returns (rs : list Robot) :
  forall (result : list dict) (net : Net) (log : Log),
  exists (report : list dict) (reqs : list Request),
    poll_robots rs result net log
      = (Returned (result ++ report)%list, (log ++ reqs)%list) /\
    map entry_identity report = map robot_identity rs /\
    length reqs = length rs.
Proof.
  induction rs as [| robot rest IH]; intros result net log.
  - exists [], []. cbn. rewrite !app_nil_r. auto.
  - destruct (poll_robot_returns robot net log) as (entry & req & Hrun & Hid).
    destruct (IH (result ++ [entry])%list net (log ++ [req])%list)
      as (report & reqs & Hrest & Hids & Hlen).
    exists (entry :: report), (req :: reqs).
    cbn [poll_robots]. unfold bind at 1. rewrite Hrun, Hrest.
    rewrite <- !app_assoc. cbn. rewrite Hid, Hids, Hlen. auto.
Qed.

(** C1: whatever each robot does, the report of the listing has one
    entry per configured robot, in the configured order, and the entry
    carries the port and the name of its robot; this holds for the loop
    over any list of robots and so for the configured one. *)
Theorem report_matches_targets :
  (forall (rs : list Robot) (net : Net) (log : Log),
     exists (report : list dict) (log' : Log),
       poll_robots rs [] net log = (Returned report, log') /\
       length report = length rs /\
       map (fun entry => (dict_get entry "port", dict_get entry "name")) report
         = map (fun robot => (Some (VInt (robot_port robot)),
                              Some (VStr (robot_name robot)))) rs) /\
  (forall (net : Net) (log : Log),
     exists (report : list dict) (log' : Log),
       list_available_robots net log = (Returned report, log') /\
       length report = length robots /\
       map (fun entry => (dict_get entry "port", dict_get entry "name")) report
         = map (fun robot => (Some (VInt (robot_port robot)),
                              Some (VStr (robot_name robot)))) robots).
Proof.
  assert (H : forall rs net log,
     exists (report : list dict) (log' : Log),
       poll_robots rs [] net log = (Returned report, log') /\
       length report = length rs /\
       map entry_identity report = map robot_identity rs).
  { intros rs net log.
    destruct (poll_robots_returns rs [] net log) as (report & reqs & Hrun & Hids & _).
    exists report, (log ++ reqs)%list. repeat split; auto.
    rewrite <- (length_map entry_identity), Hids. apply length_map. }
  split; [exact H | intros net log; apply H].
Qed.

(** C2, as the code has it: each query of the listing ends in exactly
    one of three entries.  A response with status 200 whose body decodes
    gives [online] with the decoded payload; a response with any other
    status, the other codes of the success range included, gives
    [error: <status>]; a raised exception, or a body of a 200 response
    that does not decode, gives [offline: <reason>]. *)
Theorem poll_robot_classifies (robot : Robot) (net : Net) (log : Log) :
  exists req : Request,
    req_url req = "http://localhost:" ++ str_int (robot_port robot) ++ "/" /\
    poll_robot robot net log =
      (Returned
         match net log req with
         | Responded r =>
             if status_code r =? 200 then
               match json_loads (content r) with
               | inr info =>
                   [("port", VInt (robot_port robot));
                    ("name", VStr (robot_name robot));
                    ("status", VStr "online");
                    ("info", info)]
               | inl reason =>
                   [("port", VInt (robot_port robot));
                    ("name", VStr (robot_name robot));
                    ("status", VStr ("offline: " ++ reason))]
               end
             else
               [("port", VInt (robot_port robot));
                ("name", VStr (robot_name robot));
                ("status", VStr ("error: " ++ str_int (status_code r)))]
         | Raised e =>
             [("port", VInt (robot_port robot));
              ("name", VStr (robot_name robot));
              ("status", VStr ("offline: " ++ str_exn e))]
         end, (log ++ [req])%list).
Proof.
  exists {| req_method := GET;
            req_url := get_robot_api_url (robot_port robot) ++ "/";
            req_params := None; req_json := None;
            req_timeout := Some 1.0%float |}.
  split; [reflexivity |]. rewrite poll_robot_run.
  match goal with |- context [net log ?q] => destruct (net log q) as [r | e] end;
    [| reflexivity].
  destruct (status_code r =? 200); [| reflexivity].
  destruct (json_loads (content r)); reflexivity.
Qed.

(** The request of the listing for one robot (line 275): a GET for the
    root of the robot's base URL, bounded by one second. *)
Abbreviation status_query :=
  (fun robot : Robot =>
     {| req_method := GET;
        req_url := "http://localhost:" ++ str_int (robot_port robot) ++ "/";
        req_params := None; req_json := None;
        req_timeout := Some 1.0%float |}).

Lemma poll_robot_entry (robot : Robot) (net : Net) (log : Log) :
  exists entry : dict,
    poll_robot robot net log
      = (Returned entry, (log ++ [status_query robot])%list).
Proof.
  eexists. apply poll_robot_run.
Qed.

(** The loop, entry by entry: the report continues the entries it was
    given with the entry of each robot in turn, each obtained by
    [poll_robot] on the log as the earlier queries have left it. *)
Lemma poll_robots_entries (rs : list Robot) :
  forall (result : list dict) (net : Net) (log : Log),
  exists report : list dict,
    poll_robots rs result net log
      = (Returned (result ++ report)%list,
         (log ++ map status_query rs)%list) /\
    length report = length rs /\
    forall (i : nat) (robot : Robot),
      nth_error rs i = Some robot ->
      exists entry : dict,
        nth_error report i = Some entry /\
        fst (poll_robot robot net
               (log ++ map status_query (firstn i rs))%list)
          = Returned entry.
Proof.
  induction rs as [| robot0 rest IH]; intros result net log.
  - exists []. cbn. rewrite !app_nil_r.
    split; [reflexivity |]. split; [reflexivity |].
    intros [| i] robot H; discriminate H.
  - destruct (poll_robot_entry robot0 net log) as (entry0 & Hrun).
    destruct (IH (result ++ [entry0])%list net
                 (log ++ [status_query robot0])%list)
      as (report & Hrest & Hlen & Hnth).
    exists (entry0 :: report). cbn [poll_robots]. unfold bind at 1.
    rewrite Hrun, Hrest, <- !app_assoc.
    split; [reflexivity |]. split; [cbn [length]; rewrite Hlen; reflexivity |].
    intros [| i] robot H; cbn [nth_error] in H.
    + injection H as <-. exists entry0. split; [reflexivity |].
      cbn [firstn map]. rewrite app_nil_r, Hrun. reflexivity.
    + destruct (Hnth i robot H) as (entry & Hentry & Hpoll).
      exists entry. split; [exact Hentry |].
      cbn [firstn map]. rewrite <- app_assoc in Hpoll. exact Hpoll.
Qed.

(** C3: the listing never raises, and every failure becomes the entry
    of the robot it concerns.  A query of one robot always returns an
    entry after its one request: an exception raised by the call, of
    whatever kind, gives [offline: <its text>]; a 200 answer whose body
    does not decode gives [offline: <the decoder's message>]; another
    status gives [error: <status>]; only a 200 answer that decodes gives
    [online].  The loop, over any list of robots and over the
    configured ones, always returns: it issues the query of each robot
    in order, and the i-th entry of its report is the entry that
    [poll_robot] returns for the i-th robot, queried after the robots
    before it; so the report has one entry per robot, in order, whatever
    failed. *)
Theorem listing_never_raises :
  (forall (robot : Robot) (net : Net) (log : Log),
     poll_robot robot net log =
       (Returned
          match net log (status_query robot) with
          | Raised e =>
              [("port", VInt (robot_port robot));
               ("name", VStr (robot_name robot));
               ("status", VStr ("offline: " ++ str_exn e))]
          | Responded r =>
              if status_code r =? 200 then
                match json_loads (content r) with
                | inl reason =>
                    [("port", VInt (robot_port robot));
                     ("name", VStr (robot_name robot));
                     ("status", VStr ("offline: " ++ reason))]
                | inr info =>
                    [("port", VInt (robot_port robot));
                     ("name", VStr (robot_name robot));
                     ("status", VStr "online");
                     ("info", info)]
                end
              else
                [("port", VInt (robot_port robot));
                 ("name", VStr (robot_name robot));
                 ("status", VStr ("error: " ++ str_int (status_code r)))]
          end, (log ++ [status_query robot])%list)) /\
  (forall (rs : list Robot) (net : Net) (log : Log),
     exists report : list dict,
       poll_robots rs [] net log
         = (Returned report, (log ++ map status_query rs)%list) /\
       length report = length rs /\
       forall (i : nat) (robot : Robot),
         nth_error rs i = Some robot ->
         exists entry : dict,
           nth_error report i = Some entry /\
           fst (poll_robot robot net
                  (log ++ map status_query (firstn i rs))%list)
             = Returned entry) /\
  (forall (net : Net) (log : Log),
     exists report : list dict,
       list_available_robots net log
         = (Returned report, (log ++ map status_query robots)%list) /\
       length report = length robots /\
       forall (i : nat) (robot : Robot),
         nth_error robots i = Some robot ->
         exists entry : dict,
           nth_error report i = Some entry /\
           fst (poll_robot robot net
                  (log ++ map status_query (firstn i robots))%list)
             = Returned entry).
Proof.
  split; [| split].
  - intros robot net log. rewrite poll_robot_run.
    change (get_robot_api_url (robot_port robot) ++ "/")
      with ("http://localhost:" ++ str_int (robot_port robot) ++ "/").
    destruct (net log (status_query robot)) as [r | e]; [| reflexivity].
    destruct (status_code r =? 200); [| reflexivity].
    destruct (json_loads (content r)); reflexivity.
  - intros rs net log. exact (poll_robots_entries rs [] net log).
  - intros net log. exact (poll_robots_entries robots [] net log).
Qed.

(** C10: the configured fleet is the constant list of two robots, port
    8000 named Robot 1 and port 8001 named Robot 2, and every listing
    returns two entries, for port 8000 first and port 8001 second, after
    one request to each. *)
Theorem fleet_of_two :
  robots = [ {| robot_port := 8000; robot_name := "Robot 1" |};
             {| robot_port := 8001; robot_name := "Robot 2" |} ] /\
  forall (net : Net) (log : Log),
    exists (first second : dict) (req1 req2 : Request),
      list_available_robots net log
        = (Returned [first; second], (log ++ [req1; req2])%list) /\
      req_url req1 = "http://localhost:8000/" /\
      req_url req2 = "http://localhost:8001/" /\
      dict_get first "port" = Some (VInt 8000) /\
      dict_get first "name" = Some (VStr "Robot 1") /\
      dict_get second "port" = Some (VInt 8001) /\
      dict_get second "name" = Some (VStr "Robot 2").
Proof.
  split; [reflexivity |]. intros net log.
  unfold list_available_robots, robots. cbn [poll_robots].
  unfold bind at 1. rewrite poll_robot_run.
  unfold bind at 1. rewrite poll_robot_run.
  unfold ret. cbn [app]. rewrite <- app_assoc. cbn [app].
  do 4 eexists. split; [reflexivity |]. repeat split; reflexivity.
Qed.

(** ** The robot description *)

(** The body of the [try] of [get_robot_info] followed by its handler:
    the name the robot reports, or the name given to start with. *)
Lemma resolve_name_run (fallback : Value) (req : Request)
    (net : Net) (log : Log) :
  try_except
    (response <- send req ;;
     if status_code response =? 200 then
       data <- response_json response ;;
       has_name <- py_contains data "name" ;;
       if has_name then py_getitem data "name" else ret fallback
     else ret fallback)
    (fun _ => ret fallback) net log =
  (Returned
     match net log req with
     | Responded r =>
         if status_code r =? 200 then
           match json_loads (content r) with
           | inr (VDict items) =>
               match dict_get items "name" with
               | Some v => v
               | None => fallback
               end
           | _ => fallback
           end
         else fallback
     | Raised _ => fallback
     end, (log ++ [req])%list).
Proof.
  unfold try_except. rewrite bind_send.
  destruct (net log req) as [r | e]; [| reflexivity].
  destruct (status_code r =? 200); [| reflexivity].
  unfold bind, response_json.
  destruct (json_loads (content r)) as [reason | data]; [reflexivity |].
  destruct data as [| b | z | f | s | xs | items]; cbn; try reflexivity.
  - destruct (String.index 0 "name" s); reflexivity.
  - destruct (existsb _ xs); reflexivity.
  - rewrite dict_mem_get. destruct (dict_get items "name"); reflexivity.
Qed.

(** C8: [get_robot_info] never raises and always returns the same four
    keys: the port, the two fixed listings, and a name.  The name is the
    one the robot reports when it answers 200 with a JSON object that
    has a [name] key; in every other case (another status, a raised
    exception, a body that does not decode or has no such key) it is the
    name made from the port alone. *)
Theorem robot_info_fallback (port : option Z) (net : Net) (log : Log) :
  let fallback := VStr ("Robot (Port " ++ str_int (default 8000 port) ++ ")") in
  exists (req : Request) (name : Value),
    get_robot_info port net log =
      (Returned [("name", name);
                 ("port", VInt (default 8000 port));
                 ("capabilities", VList capabilities);
                 ("api_endpoints", VList api_endpoints)],
       (log ++ [req])%list) /\
    name = match net log req with
           | Responded r =>
               if status_code r =? 200 then
                 match json_loads (content r) with
                 | inr (VDict items) =>
                     match dict_get items "name" with
                     | Some v => v
                     | None => fallback
                     end
                 | _ => fallback
                 end
               else fallback
           | Raised _ => fallback
           end.
Proof.
  intro fallback. unfold get_robot_info, client_get.
  do 2 eexists. unfold bind at 1. rewrite resolve_name_run.
  split; reflexivity.
Qed.

(** ** Addressing *)

(** C9: every operation addresses [http://localhost:<port>]: the base
    URL is that text with the decimal port, and the URL of each request
    issued by a relay tool, by the camera tool, by the robot description
    and by a query of the listing is this base followed by the path of
    the operation; the port is the one the caller names, 8000 when the
    caller names none. *)
Theorem base_url_localhost :
  (forall p : Z, get_robot_api_url p = "http://localhost:" ++ str_int p) /\
  (forall (c : RelayCall) (net : Net) (log : Log),
     exists req : Request,
       snd (relay_call c net log) = (log ++ [req])%list /\
       req_url req =
         "http://localhost:" ++
         str_int (default 8000
                    match c with
                    | DriveForward p _ _ | DriveBackward p _ _
                    | TurnLeft p _ _ | TurnRight p _ _
                    | Stop p | Beep p _ _ _ | Drive p _ _ _
                    | RobotStatus p => p
                    end) ++
         match c with
         | DriveForward _ _ _ => "/forward"
         | DriveBackward _ _ _ => "/backward"
         | TurnLeft _ _ _ => "/left"
         | TurnRight _ _ _ => "/right"
         | Stop _ => "/stop"
         | Beep _ _ _ _ => "/beep"
         | Drive _ _ _ _ => "/drive"
         | RobotStatus _ => "/"
         end) /\
  (forall (port : option Z) (format : option string) (quality : option Z)
          (net : Net) (log : Log),
     exists req : Request,
       snd (get_camera_image port format quality net log)
         = (log ++ [req])%list /\
       req_url req
         = "http://localhost:" ++ str_int (default 8000 port) ++ "/image") /\
  (forall (port : option Z) (net : Net) (log : Log),
     exists req : Request,
       snd (get_robot_info port net log) = (log ++ [req])%list /\
       req_url req
         = "http://localhost:" ++ str_int (default 8000 port) ++ "/") /\
  (forall (robot : Robot) (net : Net) (log : Log),
     exists req : Request,
       snd (poll_robot robot net log) = (log ++ [req])%list /\
       req_url req
         = "http://localhost:" ++ str_int (robot_port robot) ++ "/").
Proof.
  split; [reflexivity |]. split; [| split; [| split]].
  - intros c net log.
    destruct c; unfold_tools;
      (eexists; split; [apply relay_run_log | reflexivity]).
  - intros port format quality net log. eexists.
    rewrite camera_run. split; reflexivity.
  - intros port net log. unfold get_robot_info, client_get.
    eexists. unfold bind at 1. rewrite resolve_name_run.
    split; reflexivity.
  - intros robot net log. eexists. rewrite poll_robot_run.
    split; reflexivity.
Qed.

(** ** Further properties of the tools *)

(** The decimal text of a port reads back as the port. *)
Lemma str_int_round_trip (z : Z) :
  option_map Z.of_int (NilZero.int_of_string (str_int z)) = Some z.
Proof.
  unfold str_int. rewrite NilZero.isi.
  - cbn. rewrite DecimalZ.of_to. reflexivity.
  - intro H. assert (Hz : z = 0) by (rewrite <- (DecimalZ.of_to z), H; reflexivity).
    subst z. discriminate H.
  - intro H. assert (Hz : z = 0) by (rewrite <- (DecimalZ.of_to z), H; reflexivity).
    subst z. discriminate H.
Qed.

Lemma str_int_inj (p q : Z) : str_int p = str_int q -> p = q.
Proof.
  intro H. pose proof (str_int_round_trip p) as Hp.
  rewrite H, str_int_round_trip in Hp. congruence.
Qed.

(** X1: two ports never share a base URL, so a request for one robot
    cannot reach another. *)
Theorem robot_api_url_injective (p q : Z) :
  get_robot_api_url p = get_robot_api_url q -> p = q.
Proof.
  unfold get_robot_api_url. cbn. intro H.
  apply str_int_inj. congruence.
Qed.

(** X2: the shape of the one request of a relay tool.  No relay tool
    sets a timeout.  [drive] is the only POST: its arguments travel in
    the JSON body and it has no query.  [stop] and [robot_status] send a
    bare GET; the other tools send a GET with a query and no body. *)
Theorem relay_request_shape (c : RelayCall) (net : Net) (log : Log) :
  exists req : Request,
    snd (relay_call c net log) = (log ++ [req])%list /\
    req_timeout req = None /\
    match c with
    | Drive _ _ _ _ =>
        req_method req = POST /\ req_params req = None /\
        exists json_data : dict, req_json req = Some json_data
    | Stop _ | RobotStatus _ =>
        req_method req = GET /\ req_params req = None /\ req_json req = None
    | DriveForward _ _ _ | DriveBackward _ _ _
    | TurnLeft _ _ _ | TurnRight _ _ _ | Beep _ _ _ _ =>
        req_method req = GET /\ req_json req = None /\
        exists params : dict, req_params req = Some params
    end.
Proof.
  destruct c; unfold_tools;
    (eexists; split; [apply relay_run_log |]); cbn; eauto 6.
Qed.

(** X3: a parameter with a default in the signature is always sent,
    with the caller's value or else the default: speed 0.2 for the two
    straight moves and 1.2 for the two turns, frequency 440.0, duration
    1.0 and volume 0.5 for [beep] (whose query is always these three
    keys), both velocities 0.0 for [drive]; this holds whether or not a
    duration accompanies them. *)
Theorem defaulted_parameters_sent (c : RelayCall) (net : Net) (log : Log) :
  exists req : Request,
    snd (relay_call c net log) = (log ++ [req])%list /\
    match c with
    | DriveForward _ speed _ | DriveBackward _ speed _ =>
        exists params : dict,
          req_params req = Some params /\
          dict_get params "speed" = Some (VFloat (default 0.2%float speed))
    | TurnLeft _ speed _ | TurnRight _ speed _ =>
        exists params : dict,
          req_params req = Some params /\
          dict_get params "speed" = Some (VFloat (default 1.2%float speed))
    | Beep _ frequency duration volume =>
        req_params req =
          Some [("frequency", VFloat (default 440.0%float frequency));
                ("duration", VFloat (default 1.0%float duration));
                ("volume", VFloat (default 0.5%float volume))]
    | Drive _ linear_velocity angular_velocity _ =>
        exists json_data : dict,
          req_json req = Some json_data /\
          dict_get json_data "linear_velocity"
            = Some (VFloat (default 0.0%float linear_velocity)) /\
          dict_get json_data "angular_velocity"
            = Some (VFloat (default 0.0%float angular_velocity))
    | Stop _ | RobotStatus _ => True
    end.
Proof.
  destruct c as [p s d | p s d | p s d | p s d | p | p f d v | p l a d | p];
    try destruct d; unfold_tools;
    (eexists; split; [apply relay_run_log |]); cbn; eauto 6.
Qed.

(** X4: the camera tool forwards its arguments unchecked.  Its query is
    always the two keys format and quality, in this order, bound to the
    caller's values whatever they are (no test that the format is jpeg
    or png, nor that the quality lies in 1..100), or to [png] and 90
    when omitted; no timeout is set. *)
Theorem camera_request_unvalidated (port : option Z) (format : option string)
    (quality : option Z) (net : Net) (log : Log) :
  snd (get_camera_image port format quality net log) =
    (log ++
     [{| req_method := GET;
         req_url := "http://localhost:" ++ str_int (default 8000 port)
                    ++ "/image";
         req_params :=
           Some [("format", VStr match format with
                                 | Some f => f
                                 | None => "png"
                                 end);
                 ("quality", VInt match quality with
                                  | Some q => q
                                  | None => 90
                                  end)];
         req_json := None; req_timeout := None |}])%list.
Proof.
  rewrite camera_run. reflexivity.
Qed.

(** ** Further properties of the fleet listing *)

(** X5: the requests of the listing, for any list of robots and any
    downstream behaviour: one per robot and in the order of the list,
    each a GET for the root of the robot's base URL, without query or
    body and with a timeout of one second, appended to the earlier log;
    a failing robot neither stops the later queries nor is asked
    twice. *)
Theorem listing_probes (rs : list Robot) :
  forall (result : list dict) (net : Net) (log : Log),
    snd (poll_robots rs result net log) =
      (log ++
       map (fun robot =>
              {| req_method := GET;
                 req_url := "http://localhost:" ++ str_int (robot_port robot)
                            ++ "/";
                 req_params := None; req_json := None;
                 req_timeout := Some 1.0%float |}) rs)%list.
Proof.
  induction rs as [| robot rest IH]; intros result net log.
  - cbn. rewrite app_nil_r. reflexivity.
  - cbn [poll_robots map]. unfold bind at 1. rewrite poll_robot_run.
    rewrite IH, <- app_assoc. reflexivity.
Qed.

Lemma poll_robot_stateless (robot : Robot) (net : Net) (log : Log) :
  (forall (l1 l2 : Log) (req : Request), net l1 req = net l2 req) ->
  fst (poll_robot robot net log) = fst (poll_robot robot net []).
Proof.
  intro H. rewrite !poll_robot_run. cbn [fst].
  rewrite (H log []). reflexivity.
Qed.

Lemma poll_robots_independent (rs : list Robot) :
  forall (result : list dict) (net : Net) (log : Log),
    (forall (l1 l2 : Log) (req : Request), net l1 req = net l2 req) ->
    exists report : list dict,
      fst (poll_robots rs result net log) = Returned (result ++ report)%list /\
      Forall2 (fun robot entry =>
                 fst (poll_robot robot net []) = Returned entry) rs report.
Proof.
  induction rs as [| robot rest IH]; intros result net log Hnet.
  - exists []. cbn. rewrite app_nil_r. split; [reflexivity | constructor].
  - destruct (poll_robot_returns robot net log) as (entry & req & Hrun & _).
    destruct (IH (result ++ [entry])%list net (log ++ [req])%list Hnet)
      as (report & Hrest & Hall).
    exists (entry :: report). cbn [poll_robots]. unfold bind at 1.
    rewrite Hrun, Hrest, <- app_assoc. split; [reflexivity |].
    constructor; [| exact Hall].
    rewrite <- (poll_robot_stateless robot net log Hnet), Hrun. reflexivity.
Qed.

(** X6: isolation.  When what a robot answers does not depend on the
    requests made before, every entry of the report is the entry that
    querying its robot alone gives: no entry depends on the other
    robots of the list or on their failures.  This holds for the loop
    over any list and for the configured fleet. *)
Theorem listing_entries_independent (rs : list Robot) (net : Net) (log : Log) :
  (forall (l1 l2 : Log) (req : Request), net l1 req = net l2 req) ->
  (exists report : list dict,
     fst (poll_robots rs [] net log) = Returned report /\
     Forall2 (fun robot entry =>
                fst (poll_robot robot net []) = Returned entry) rs report) /\
  (exists report : list dict,
     fst (list_available_robots net log) = Returned report /\
     Forall2 (fun robot entry =>
                fst (poll_robot robot net []) = Returned entry) robots report).
Proof.
  intro Hnet. split.
  - destruct (poll_robots_independent rs [] net log Hnet) as (report & H & Hall).
    exists report. split; assumption.
  - destruct (poll_robots_independent robots [] net log Hnet)
      as (report & H & Hall).
    exists report. split; assumption.
Qed.

(** X7: the loop composes.  Listing a fleet made of two parts is
    listing the first part and then the second, the second carrying on
    from the entries and the log the first has left. *)
Theorem poll_robots_app (rs1 rs2 : list Robot) :
  forall (result : list dict) (net : Net) (log : Log),
    poll_robots (rs1 ++ rs2)%list result net log =
      (partial <- poll_robots rs1 result ;; poll_robots rs2 partial) net log.
Proof.
  induction rs1 as [| robot rest IH]; intros result net log.
  - reflexivity.
  - cbn [app poll_robots]. unfold bind.
    destruct (poll_robot robot net log) as [[entry | e] log']; [| reflexivity].
    rewrite IH. reflexivity.
Qed.

(** X8: the shape of an entry.  A query always leaves an entry whose
    keys are port, name, status, followed by info exactly when the
    status is [online]; a status that is not [online] is never
    accompanied by a payload. *)
Theorem entry_shape (robot : Robot) (net : Net) (log : Log) :
  exists entry : dict,
    fst (poll_robot robot net log) = Returned entry /\
    ((dict_get entry "status" = Some (VStr "online") /\
      map fst entry = ["port"; "name"; "status"; "info"]) \/
     (exists text : string,
        dict_get entry "status" = Some (VStr text) /\
        text <> "online" /\
        dict_get entry "info" = None /\
        map fst entry = ["port"; "name"; "status"])).
Proof.
  rewrite poll_robot_run. eexists. split; [reflexivity |].
  match goal with |- context [net log ?q] => destruct (net log q) as [r | e] end.
  - destruct (status_code r =? 200).
    + destruct (json_loads (content r)) as [reason | info].
      * right. eexists. cbn. repeat split. discriminate.
      * left. cbn. split; reflexivity.
    + right. eexists. cbn. repeat split. discriminate.
  - right. eexists. cbn. repeat split. discriminate.
Qed.

(** X11: [online] is sound.  An entry says [online] only if the robot
    answered the query of the listing with status exactly 200 and a body
    that decodes, and the payload of the entry is that decoded body. *)
Theorem online_is_sound (robot : Robot) (net : Net) (log : Log)
    (entry : dict) :
  fst (poll_robot robot net log) = Returned entry ->
  dict_get entry "status" = Some (VStr "online") ->
  exists (r : Response) (info : Value),
    net log {| req_method := GET;
               req_url := "http://localhost:" ++ str_int (robot_port robot)
                          ++ "/";
               req_params := None; req_json := None;
               req_timeout := Some 1.0%float |} = Responded r /\
    status_code r = 200 /\
    json_loads (content r) = inr info /\
    dict_get entry "info" = Some info.
Proof.
  rewrite poll_robot_run. cbn [fst].
  match goal with
  | |- context [net log ?q] => destruct (net log q) as [r | e] eqn:Hnet
  end.
  - destruct (Z.eqb_spec (status_code r) 200) as [H200 | Hne].
    + destruct (json_loads (content r)) as [reason | info] eqn:Hjson;
        intros [= <-] Hstatus; cbn in Hstatus; [discriminate |].
      exists r, info. split; [exact Hnet |]. repeat split; assumption.
    + intros [= <-] Hstatus. cbn in Hstatus. discriminate.
  - intros [= <-] Hstatus. cbn in Hstatus. discriminate.
Qed.

(** ** The three readers of the root endpoint *)

(** X9: a success status other than 200.  When a robot answers every
    request with a status in 201..299 and a JSON body, [robot_status]
    returns the body, yet the listing reports the robot as
    [error: <status>] and [get_robot_info] ignores the body and gives
    the name made from the port. *)
Theorem success_other_than_200 (robot : Robot) (net : Net) (log : Log)
    (r : Response) (v : Value) :
  (forall (l : Log) (req : Request), net l req = Responded r) ->
  is_success (status_code r) = true ->
  status_code r <> 200 ->
  json_loads (content r) = inr v ->
  fst (robot_status (Some (robot_port robot)) net log) = Returned v /\
  fst (poll_robot robot net log) =
    Returned [("port", VInt (robot_port robot));
              ("name", VStr (robot_name robot));
              ("status", VStr ("error: " ++ str_int (status_code r)))] /\
  fst (get_robot_info (Some (robot_port robot)) net log) =
    Returned [("name", VStr ("Robot (Port " ++ str_int (robot_port robot)
                             ++ ")"));
              ("port", VInt (robot_port robot));
              ("capabilities", VList capabilities);
              ("api_endpoints", VList api_endpoints)].
Proof.
  intros Hnet Hok Hne Hjson.
  assert (H200 : (status_code r =? 200) = false) by (apply Z.eqb_neq; exact Hne).
  split; [| split].
  - unfold robot_status, client_get. cbn [default].
    rewrite relay_run. cbn [fst]. rewrite Hnet, Hok, Hjson. reflexivity.
  - rewrite poll_robot_run. cbn [fst]. rewrite Hnet, H200. reflexivity.
  - unfold get_robot_info, client_get. cbn [default].
    unfold bind at 1. rewrite resolve_name_run, Hnet, H200. reflexivity.
Qed.

(** X10: status 200.  When a robot answers every request with status
    200 and a JSON body, the payload of its [online] entry in the
    listing is the value [robot_status] returns, and the name
    [get_robot_info] gives is the [name] entry of that value when it is
    an object with such a key, the name made from the port otherwise. *)
Theorem online_entry_agrees (robot : Robot) (net : Net) (log : Log)
    (r : Response) (v : Value) :
  (forall (l : Log) (req : Request), net l req = Responded r) ->
  status_code r = 200 ->
  json_loads (content r) = inr v ->
  fst (robot_status (Some (robot_port robot)) net log) = Returned v /\
  fst (poll_robot robot net log) =
    Returned [("port", VInt (robot_port robot));
              ("name", VStr (robot_name robot));
              ("status", VStr "online");
              ("info", v)] /\
  fst (get_robot_info (Some (robot_port robot)) net log) =
    Returned [("name",
               match v with
               | VDict items =>
                   match dict_get items "name" with
                   | Some name => name
                   | None => VStr ("Robot (Port "
                                   ++ str_int (robot_port robot) ++ ")")
                   end
               | _ => VStr ("Robot (Port " ++ str_int (robot_port robot)
                            ++ ")")
               end);
              ("port", VInt (robot_port robot));
              ("capabilities", VList capabilities);
              ("api_endpoints", VList api_endpoints)].
Proof.
  intros Hnet H200 Hjson.
  split; [| split].
  - unfold robot_status, client_get. cbn [default].
    rewrite relay_run. cbn [fst]. rewrite Hnet, H200, Hjson. reflexivity.
  - rewrite poll_robot_run. cbn [fst]. rewrite Hnet, H200, Hjson. reflexivity.
  - unfold get_robot_info, client_get. cbn [default].
    unfold bind at 1. rewrite resolve_name_run, Hnet, H200, Hjson.
    destruct v; reflexivity.
Qed.

End Server.

(** ** Closed runs

    The tools on concrete robots, with [sample_json_loads] for the
    decoder. *)

Example str_int_port : get_robot_api_url 8000 = "http://localhost:8000".
Proof. reflexivity. Qed.

Example str_int_negative : str_int (-7) = "-7".
Proof. reflexivity. Qed.

Example forward_500 :
  drive_forward sample_json_loads None None None
    (always (Responded {| status_code := 500; content := [] |})) [] =
  (Raises (HTTPStatusError 500),
   [{| req_method := GET; req_url := "http://localhost:8000/forward";
       req_params := Some [("speed", VFloat 0.2)];
       req_json := None; req_timeout := None |}]).
Proof. reflexivity. Qed.

Example stop_timeout :
  stop sample_json_loads (Some 8001)
    (always (Raised (TransportError "timed out"))) [] =
  (Raises (TransportError "timed out"),
   [{| req_method := GET; req_url := "http://localhost:8001/stop";
       req_params := None; req_json := None; req_timeout := None |}]).
Proof. reflexivity. Qed.

Example status_not_json :
  fst (robot_status sample_json_loads None
         (always (Responded {| status_code := 200; content := [x3c; x3e] |})) [])
  = Raises (JSONDecodeError "Expecting value: line 1 column 1 (char 0)").
Proof. reflexivity. Qed.

Example drive_body :
  snd (drive sample_json_loads None (Some 0.1%float) None (Some 3.0%float)
         (always refused) []) =
  [{| req_method := POST; req_url := "http://localhost:8000/drive";
      req_params := None;
      req_json := Some [("linear_velocity", VFloat 0.1);
                        ("angular_velocity", VFloat 0.0);
                        ("duration", VFloat 3.0)];
      req_timeout := None |}].
Proof. reflexivity. Qed.

Example camera_jpeg :
  fst (get_camera_image None (Some "jpeg") None
         (always (Responded {| status_code := 200; content := [xff; xd8] |})) [])
  = Returned {| image_data := [xff; xd8]; image_format := "jpeg" |}.
Proof. reflexivity. Qed.

Example listing_one_down :
  list_available_robots sample_json_loads
    (by_url [("http://localhost:8000/",
              Responded {| status_code := 200; content := rover_body |})]
            refused) [] =
  (Returned
     [[("port", VInt 8000); ("name", VStr "Robot 1");
       ("status", VStr "online");
       ("info", VDict [("name", VStr "Rover")])];
      [("port", VInt 8001); ("name", VStr "Robot 2");
       ("status", VStr "offline: All connection attempts failed")]],
   [{| req_method := GET; req_url := "http://localhost:8000/";
       req_params := None; req_json := None;
       req_timeout := Some 1.0%float |};
    {| req_method := GET; req_url := "http://localhost:8001/";
       req_params := None; req_json := None;
       req_timeout := Some 1.0%float |}]).
Proof. reflexivity. Qed.

Example info_reported_name :
  fst (get_robot_info sample_json_loads None
         (always (Responded {| status_code := 200; content := rover_body |})) [])
  = Returned [("name", VStr "Rover"); ("port", VInt 8000);
              ("capabilities", VList capabilities);
              ("api_endpoints", VList api_endpoints)].
Proof. reflexivity. Qed.

Example info_unreachable :
  fst (get_robot_info sample_json_loads (Some 8001) (always refused) [])
  = Returned [("name", VStr "Robot (Port 8001)"); ("port", VInt 8001);
              ("capabilities", VList capabilities);
              ("api_endpoints", VList api_endpoints)].
Proof. reflexivity. Qed.

(** C6 on a robot that answers 200 with the empty object. *)
Lemma drive_forward_end_to_end_run :
  let r := {| status_code := 200; content := [x7b; x7d] |} in
  let req := {| req_method := GET;
                req_url := "http://localhost:8000/forward";
                req_params :=
                  Some [("speed", VFloat 0.5); ("duration", VFloat 2.0)];
                req_json := None; req_timeout := None |} in
  always (Responded r) [] req = Responded r /\
  is_success (status_code r) = true /\
  sample_json_loads (content r) = inr (VDict []) /\
  snd (drive_forward sample_json_loads None (Some 0.5%float) (Some 2.0%float)
         (always (Responded r)) []) = [req] /\
  fst (drive_forward sample_json_loads None (Some 0.5%float) (Some 2.0%float)
         (always (Responded r)) []) = Returned (VDict []).
Proof.
  intros r req.
  destruct (proj1 (drive_forward_end_to_end sample_json_loads)
              None (always (Responded r)) [] req eq_refl) as [Hlog Hres].
  split; [reflexivity |]. split; [reflexivity |]. split; [reflexivity |].
  split; [exact Hlog |]. apply (Hres r (VDict [])); reflexivity.
Defined.

(** C2 as the specification words it fails on a robot that answers
    201 Created with a JSON body: the status is in the success range and
    the body decodes, yet the entry is [error: 201], not [online], and
    carries no payload. *)
Lemma created_is_not_online :
  is_success 201 = true /\
  sample_json_loads [x7b; x7d] = inr (VDict []) /\
  poll_robot sample_json_loads
    {| robot_port := 8000; robot_name := "Robot 1" |}
    (always (Responded {| status_code := 201; content := [x7b; x7d] |})) [] =
  (Returned [("port", VInt 8000); ("name", VStr "Robot 1");
             ("status", VStr "error: 201")],
   [{| req_method := GET; req_url := "http://localhost:8000/";
       req_params := None; req_json := None;
       req_timeout := Some 1.0%float |}]) /\
  dict_get [("port", VInt 8000); ("name", VStr "Robot 1");
            ("status", VStr "error: 201")] "status" <> Some (VStr "online") /\
  dict_get [("port", VInt 8000); ("name", VStr "Robot 1");
            ("status", VStr "error: 201")] "info" = None.
Proof.
  repeat split; try reflexivity. cbn. discriminate.
Qed.

(** ** Closed runs of the further properties *)

(** X1 at port 8000. *)
Lemma robot_api_url_injective_run :
  get_robot_api_url 8000 = get_robot_api_url (7999 + 1) /\ 8000 = 7999 + 1.
Proof.
  split; [reflexivity |].
  apply (@robot_api_url_injective 8000 (7999 + 1)). reflexivity.
Defined.

(** X6 on the configured fleet, the first robot up and the second
    refusing connections. *)
Lemma listing_entries_independent_run :
  let net := by_url [("http://localhost:8000/",
                      Responded {| status_code := 200;
                                   content := rover_body |})] refused in
  (forall (l1 l2 : Log) (req : Request), net l1 req = net l2 req) /\
  (exists report : list dict,
     fst (list_available_robots sample_json_loads net []) = Returned report /\
     Forall2 (fun robot entry =>
                fst (poll_robot sample_json_loads robot net [])
                  = Returned entry) robots report).
Proof.
  intro net.
  assert (Hnet : forall (l1 l2 : Log) (req : Request), net l1 req = net l2 req)
    by (intros; reflexivity).
  split; [exact Hnet |].
  exact (proj2 (@listing_entries_independent sample_json_loads robots net []
                  Hnet)).
Defined.

(** X9 on a robot that answers 201 with the empty object. *)
Lemma success_other_than_200_run :
  let r := {| status_code := 201; content := [x7b; x7d] |} in
  let robot := {| robot_port := 8001; robot_name := "Robot 2" |} in
  (forall (l : Log) (req : Request), always (Responded r) l req = Responded r) /\
  is_success (status_code r) = true /\
  status_code r <> 200 /\
  sample_json_loads (content r) = inr (VDict []) /\
  fst (robot_status sample_json_loads (Some 8001) (always (Responded r)) [])
    = Returned (VDict []) /\
  fst (poll_robot sample_json_loads robot (always (Responded r)) []) =
    Returned [("port", VInt 8001); ("name", VStr "Robot 2");
              ("status", VStr "error: 201")] /\
  fst (get_robot_info sample_json_loads (Some 8001) (always (Responded r)) []) =
    Returned [("name", VStr "Robot (Port 8001)");
              ("port", VInt 8001);
              ("capabilities", VList capabilities);
              ("api_endpoints", VList api_endpoints)].
Proof.
  intros r robot.
  assert (H1 : forall (l : Log) (req : Request),
             always (Responded r) l req = Responded r) by reflexivity.
  assert (H2 : is_success (status_code r) = true) by reflexivity.
  assert (H3 : status_code r <> 200) by discriminate.
  assert (H4 : sample_json_loads (content r) = inr (VDict [])) by reflexivity.
  split; [exact H1 |]. split; [exact H2 |]. split; [exact H3 |].
  split; [exact H4 |].
  exact (@success_other_than_200 sample_json_loads robot
           (always (Responded r)) [] r (VDict []) H1 H2 H3 H4).
Defined.

(** X10 on a robot that answers 200 and calls itself Rover. *)
Lemma online_entry_agrees_run :
  let r := {| status_code := 200; content := rover_body |} in
  let robot := {| robot_port := 8000; robot_name := "Robot 1" |} in
  let v := VDict [("name", VStr "Rover")] in
  (forall (l : Log) (req : Request), always (Responded r) l req = Responded r) /\
  status_code r = 200 /\
  sample_json_loads (content r) = inr v /\
  fst (robot_status sample_json_loads (Some 8000) (always (Responded r)) [])
    = Returned v /\
  fst (poll_robot sample_json_loads robot (always (Responded r)) []) =
    Returned [("port", VInt 8000); ("name", VStr "Robot 1");
              ("status", VStr "online"); ("info", v)] /\
  fst (get_robot_info sample_json_loads (Some 8000) (always (Responded r)) []) =
    Returned [("name", VStr "Rover");
              ("port", VInt 8000);
              ("capabilities", VList capabilities);
              ("api_endpoints", VList api_endpoints)].
Proof.
  intros r robot v.
  assert (H1 : forall (l : Log) (req : Request),
             always (Responded r) l req = Responded r) by reflexivity.
  assert (H2 : status_code r = 200) by reflexivity.
  assert (H3 : sample_json_loads (content r) = inr v) by reflexivity.
  split; [exact H1 |]. split; [exact H2 |]. split; [exact H3 |].
  exact (@online_entry_agrees sample_json_loads robot
           (always (Responded r)) [] r v H1 H2 H3).
Defined.

(** X11 on the same robot. *)
Lemma online_is_sound_run :
  let r := {| status_code := 200; content := rover_body |} in
  let robot := {| robot_port := 8000; robot_name := "Robot 1" |} in
  let entry := [("port", VInt 8000); ("name", VStr "Robot 1");
                ("status", VStr "online");
                ("info", VDict [("name", VStr "Rover")])] in
  fst (poll_robot sample_json_loads robot (always (Responded r)) [])
    = Returned entry /\
  dict_get entry "status" = Some (VStr "online") /\
  exists (r' : Response) (info : Value),
    always (Responded r) []
      {| req_method := GET; req_url := "http://localhost:8000/";
         req_params := None; req_json := None;
         req_timeout := Some 1.0%float |} = Responded r' /\
    status_code r' = 200 /\
    sample_json_loads (content r') = inr info /\
    dict_get entry "info" = Some info.
Proof.
  intros r robot entry.
  assert (H1 : fst (poll_robot sample_json_loads robot
                      (always (Responded r)) []) = Returned entry)
    by reflexivity.
  assert (H2 : dict_get entry "status" = Some (VStr "online")) by reflexivity.
  split; [exact H1 |]. split; [exact H2 |].
  exact (@online_is_sound sample_json_loads robot (always (Responded r)) []
           entry H1 H2).
Defined.
